(** * The bound IDL AST of buildscripts/idl/idl/ast.py

    A shallow embedding of the classes of [ast.py] and the properties of the
    data model that follow from their constructors.

    Python objects are embedded as records, one module per class.  An
    attribute typed [unicode] that starts as [None] is an [option string],
    an [int] is a [Z], a [List[...]] is a [list].  The constructors of the
    node classes take a source position only and give every attribute its
    default; everything else is written afterwards by plain attribute
    assignment ([node.attr = value]), which each module embeds as [setattr]
    over its type [assignment]. *)

From Stdlib Require Import ZArith PrimFloat.
From stdpp Require Import base option list strings gmap.

Local Open Scope Z_scope.
Local Open Scope string_scope.

(** ** Results of Python calls *)

(** A call returns a value or raises.  The only exception [ast.py] can raise
    is the [AssertionError] of the [assert] in [IDLBoundSpec.__init__]. *)
Inductive exn : Type :=
| AssertionError.

Inductive result (A : Type) : Type :=
| Ok (a : A)
| Raise (e : exn).
Arguments Ok {A} a.
Arguments Raise {A} e.

Definition succeeds {A : Type} (r : result A) : Prop := ∃ a, r = Ok a.

(** [x is None] and [x is not None]. *)
Definition is_None {A : Type} (x : option A) : bool :=
  match x with None => true | Some _ => false end.

Definition is_not_None {A : Type} (x : option A) : bool := negb (is_None x).

(** [Union[int, float]], the type of a validator bound. *)
Inductive number : Type :=
| Int (z : Z)
| Float (f : float).

(** ** common.SourceLocation *)

Module common.

(** Modelled from the spec: [common.SourceLocation], the base class of every
    node class, lives in [common.py], which is not part of the sources at
    hand.  The spec describes it as the (file, line, column) provenance tag
    attached to every node; its constructor receives the three values in
    that order from every [super(...).__init__(file_name, line, column)]
    call of [ast.py]. *)
Record SourceLocation : Type := mkSourceLocation {
  file_name : string;
  line : Z;
  column : Z
}.

Definition SourceLocation_init (file_name : string) (line column : Z) : SourceLocation :=
  mkSourceLocation file_name line column.

End common.

Module errors.

(** Modelled from the spec: [errors.ParserErrorCollection] lives in
    [errors.py], which is not part of the sources at hand.  [ast.py] only
    tests it against [None]; the collected messages stand for it. *)
Definition ParserErrorCollection : Type := list string.

End errors.

(** ** Nodes: what the classes derived from SourceLocation share *)

(** A node class has a source position, inherited from SourceLocation, and
    attributes of its own that are assigned after construction. *)
Class Node (T A : Type) : Type := {
  location : T → common.SourceLocation;
  setattr : T → A → T
}.
#[global] Hint Mode Node ! - : typeclass_instances.

(** No assignment to an attribute declared by a class of [ast.py] touches the
    inherited position. *)
Class NodeLaws (T A : Type) `{Node T A} : Prop :=
  setattr_location : ∀ (n : T) (a : A), location (setattr n a) = location n.

(** A run of assignments, in program order. *)
Definition assign_all {T A : Type} `{Node T A} (n : T) (l : list A) : T :=
  foldl setattr n l.

(** ** class Validator *)

Module Validator.

(** class Validator(common.SourceLocation): an instance of a validator for a
    field.  The docstring asks for at least one predicate; the constructor sets
    none, they are assigned afterwards. *)
Record t : Type := mk {
  loc : common.SourceLocation;
  gt : option number;
  lt : option number;
  gte : option number;
  lte : option number;
  callback : option string
}.

(** [Validator.__init__(self, file_name, line, column)] *)
Definition init (file_name : string) (line column : Z) : t :=
  {| loc := common.SourceLocation_init file_name line column;
     gt := None;
     lt := None;
     gte := None;
     lte := None;
     callback := None |}.

(** [self.<attribute> = v], one constructor per attribute of the class. *)
Inductive assignment : Type :=
| set_gt (v : option number)
| set_lt (v : option number)
| set_gte (v : option number)
| set_lte (v : option number)
| set_callback (v : option string).

Definition assign (self : t) (a : assignment) : t :=
  let '(mk l0 x1 x2 x3 x4 x5) := self in
  match a with
  | set_gt v => mk l0 v x2 x3 x4 x5
  | set_lt v => mk l0 x1 v x3 x4 x5
  | set_gte v => mk l0 x1 x2 v x4 x5
  | set_lte v => mk l0 x1 x2 x3 v x5
  | set_callback v => mk l0 x1 x2 x3 x4 v
  end.

#[global] Instance node : Node t assignment :=
  {| location := loc; setattr := assign |}.

End Validator.

(** ** class Condition *)

Module Condition.

(** class Condition(common.SourceLocation): condition(s) for a ServerParameter
    or ConfigOption. *)
Record t : Type := mk {
  loc : common.SourceLocation;
  expr : option string;
  constexpr : option string;
  preprocessor : option string
}.

(** [Condition.__init__(self, file_name, line, column)] *)
Definition init (file_name : string) (line column : Z) : t :=
  {| loc := common.SourceLocation_init file_name line column;
     expr := None;
     constexpr := None;
     preprocessor := None |}.

(** [self.<attribute> = v], one constructor per attribute of the class. *)
Inductive assignment : Type :=
| set_expr (v : option string)
| set_constexpr (v : option string)
| set_preprocessor (v : option string).

Definition assign (self : t) (a : assignment) : t :=
  let '(mk l0 x1 x2 x3) := self in
  match a with
  | set_expr v => mk l0 v x2 x3
  | set_constexpr v => mk l0 x1 v x3
  | set_preprocessor v => mk l0 x1 x2 v
  end.

#[global] Instance node : Node t assignment :=
  {| location := loc; setattr := assign |}.

End Condition.

(** ** class ConfigGlobal *)

Module ConfigGlobal.

(** class ConfigGlobal(common.SourceLocation): IDL ConfigOption globals. *)
Record t : Type := mk {
  loc : common.SourceLocation;
  initializer_name : option string
}.

(** [ConfigGlobal.__init__(self, file_name, line, column)] *)
Definition init (file_name : string) (line column : Z) : t :=
  {| loc := common.SourceLocation_init file_name line column;
     initializer_name := None |}.

(** [self.<attribute> = v], one constructor per attribute of the class. *)
Inductive assignment : Type :=
| set_initializer_name (v : option string).

Definition assign (self : t) (a : assignment) : t :=
  let '(mk l0 x1) := self in
  match a with
  | set_initializer_name v => mk l0 v
  end.

#[global] Instance node : Node t assignment :=
  {| location := loc; setattr := assign |}.

End ConfigGlobal.

(** ** class Global *)

Module Global.

(** class Global(common.SourceLocation): IDL global object container. *)
Record t : Type := mk {
  loc : common.SourceLocation;
  cpp_namespace : option string;
  cpp_includes : list string;
  configs : option ConfigGlobal.t
}.

(** [Global.__init__(self, file_name, line, column)] *)
Definition init (file_name : string) (line column : Z) : t :=
  {| loc := common.SourceLocation_init file_name line column;
     cpp_namespace := None;
     cpp_includes := [];
     configs := None |}.

(** [self.<attribute> = v], one constructor per attribute of the class. *)
Inductive assignment : Type :=
| set_cpp_namespace (v : option string)
| set_cpp_includes (v : list string)
| set_configs (v : option ConfigGlobal.t).

Definition assign (self : t) (a : assignment) : t :=
  let '(mk l0 x1 x2 x3) := self in
  match a with
  | set_cpp_namespace v => mk l0 v x2 x3
  | set_cpp_includes v => mk l0 x1 v x3
  | set_configs v => mk l0 x1 x2 v
  end.

#[global] Instance node : Node t assignment :=
  {| location := loc; setattr := assign |}.

End Global.

(** ** class Field *)

Module Field.

(** class Field(common.SourceLocation): an instance of a field in a struct.
    [chained_struct_field] is itself a Field, so the type is recursive. *)
#[warnings="-register-all"]
Inductive t : Type := mk {
  loc : common.SourceLocation;
  name : option string;
  description : option string;
  cpp_name : option string;
  optional : bool;
  ignore : bool;
  chained : bool;
  comparison_order : Z;
  cpp_type : option string;
  bson_serialization_type : option (list string);
  serializer : option string;
  deserializer : option string;
  bindata_subtype : option string;
  default : option string;
  struct_type : option string;
  array : bool;
  supports_doc_sequence : bool;
  enum_type : bool;
  chained_struct_field : option t;
  serialize_op_msg_request_only : bool;
  constructed : bool;
  validator : option Validator.t
}.

(** [Field.__init__(self, file_name, line, column)] *)
Definition init (file_name : string) (line column : Z) : t :=
  {| loc := common.SourceLocation_init file_name line column;
     name := None;
     description := None;
     cpp_name := None;
     optional := false;
     ignore := false;
     chained := false;
     comparison_order := (-1);
     cpp_type := None;
     bson_serialization_type := None;
     serializer := None;
     deserializer := None;
     bindata_subtype := None;
     default := None;
     struct_type := None;
     array := false;
     supports_doc_sequence := false;
     enum_type := false;
     chained_struct_field := None;
     serialize_op_msg_request_only := false;
     constructed := false;
     validator := None |}.

(** [self.<attribute> = v], one constructor per attribute of the class. *)
Inductive assignment : Type :=
| set_name (v : option string)
| set_description (v : option string)
| set_cpp_name (v : option string)
| set_optional (v : bool)
| set_ignore (v : bool)
| set_chained (v : bool)
| set_comparison_order (v : Z)
| set_cpp_type (v : option string)
| set_bson_serialization_type (v : option (list string))
| set_serializer (v : option string)
| set_deserializer (v : option string)
| set_bindata_subtype (v : option string)
| set_default (v : option string)
| set_struct_type (v : option string)
| set_array (v : bool)
| set_supports_doc_sequence (v : bool)
| set_enum_type (v : bool)
| set_chained_struct_field (v : option t)
| set_serialize_op_msg_request_only (v : bool)
| set_constructed (v : bool)
| set_validator (v : option Validator.t).

Definition assign (self : t) (a : assignment) : t :=
  let '(mk l0 x1 x2 x3 x4 x5 x6 x7 x8 x9 x10 x11 x12 x13 x14 x15 x16 x17 x18 x19 x20 x21) := self in
  match a with
  | set_name v => mk l0 v x2 x3 x4 x5 x6 x7 x8 x9 x10 x11 x12 x13 x14 x15 x16 x17 x18 x19 x20
      x21
  | set_description v => mk l0 x1 v x3 x4 x5 x6 x7 x8 x9 x10 x11 x12 x13 x14 x15 x16 x17 x18 x19
      x20 x21
  | set_cpp_name v => mk l0 x1 x2 v x4 x5 x6 x7 x8 x9 x10 x11 x12 x13 x14 x15 x16 x17 x18 x19
      x20 x21
  | set_optional v => mk l0 x1 x2 x3 v x5 x6 x7 x8 x9 x10 x11 x12 x13 x14 x15 x16 x17 x18 x19
      x20 x21
  | set_ignore v => mk l0 x1 x2 x3 x4 v x6 x7 x8 x9 x10 x11 x12 x13 x14 x15 x16 x17 x18 x19 x20
      x21
  | set_chained v => mk l0 x1 x2 x3 x4 x5 v x7 x8 x9 x10 x11 x12 x13 x14 x15 x16 x17 x18 x19 x20
      x21
  | set_comparison_order v => mk l0 x1 x2 x3 x4 x5 x6 v x8 x9 x10 x11 x12 x13 x14 x15 x16 x17
      x18 x19 x20 x21
  | set_cpp_type v => mk l0 x1 x2 x3 x4 x5 x6 x7 v x9 x10 x11 x12 x13 x14 x15 x16 x17 x18 x19
      x20 x21
  | set_bson_serialization_type v => mk l0 x1 x2 x3 x4 x5 x6 x7 x8 v x10 x11 x12 x13 x14 x15 x16
      x17 x18 x19 x20 x21
  | set_serializer v => mk l0 x1 x2 x3 x4 x5 x6 x7 x8 x9 v x11 x12 x13 x14 x15 x16 x17 x18 x19
      x20 x21
  | set_deserializer v => mk l0 x1 x2 x3 x4 x5 x6 x7 x8 x9 x10 v x12 x13 x14 x15 x16 x17 x18 x19
      x20 x21
  | set_bindata_subtype v => mk l0 x1 x2 x3 x4 x5 x6 x7 x8 x9 x10 x11 v x13 x14 x15 x16 x17 x18
      x19 x20 x21
  | set_default v => mk l0 x1 x2 x3 x4 x5 x6 x7 x8 x9 x10 x11 x12 v x14 x15 x16 x17 x18 x19 x20
      x21
  | set_struct_type v => mk l0 x1 x2 x3 x4 x5 x6 x7 x8 x9 x10 x11 x12 x13 v x15 x16 x17 x18 x19
      x20 x21
  | set_array v => mk l0 x1 x2 x3 x4 x5 x6 x7 x8 x9 x10 x11 x12 x13 x14 v x16 x17 x18 x19 x20
      x21
  | set_supports_doc_sequence v => mk l0 x1 x2 x3 x4 x5 x6 x7 x8 x9 x10 x11 x12 x13 x14 x15 v
      x17 x18 x19 x20 x21
  | set_enum_type v => mk l0 x1 x2 x3 x4 x5 x6 x7 x8 x9 x10 x11 x12 x13 x14 x15 x16 v x18 x19
      x20 x21
  | set_chained_struct_field v => mk l0 x1 x2 x3 x4 x5 x6 x7 x8 x9 x10 x11 x12 x13 x14 x15 x16
      x17 v x19 x20 x21
  | set_serialize_op_msg_request_only v => mk l0 x1 x2 x3 x4 x5 x6 x7 x8 x9 x10 x11 x12 x13 x14
      x15 x16 x17 x18 v x20 x21
  | set_constructed v => mk l0 x1 x2 x3 x4 x5 x6 x7 x8 x9 x10 x11 x12 x13 x14 x15 x16 x17 x18
      x19 v x21
  | set_validator v => mk l0 x1 x2 x3 x4 x5 x6 x7 x8 x9 x10 x11 x12 x13 x14 x15 x16 x17 x18 x19
      x20 v
  end.

#[global] Instance node : Node t assignment :=
  {| location := loc; setattr := assign |}.

End Field.

(** ** class Struct *)

Module Struct.

(** class Struct(common.SourceLocation): IDL struct information. *)
Record t : Type := mk {
  loc : common.SourceLocation;
  name : option string;
  cpp_name : option string;
  description : option string;
  strict : bool;
  immutable : bool;
  inline_chained_structs : bool;
  generate_comparison_operators : bool;
  fields : list Field.t
}.

(** [Struct.__init__(self, file_name, line, column)] *)
Definition init (file_name : string) (line column : Z) : t :=
  {| loc := common.SourceLocation_init file_name line column;
     name := None;
     cpp_name := None;
     description := None;
     strict := true;
     immutable := false;
     inline_chained_structs := false;
     generate_comparison_operators := false;
     fields := [] |}.

(** [self.<attribute> = v], one constructor per attribute of the class. *)
Inductive assignment : Type :=
| set_name (v : option string)
| set_cpp_name (v : option string)
| set_description (v : option string)
| set_strict (v : bool)
| set_immutable (v : bool)
| set_inline_chained_structs (v : bool)
| set_generate_comparison_operators (v : bool)
| set_fields (v : list Field.t).

Definition assign (self : t) (a : assignment) : t :=
  let '(mk l0 x1 x2 x3 x4 x5 x6 x7 x8) := self in
  match a with
  | set_name v => mk l0 v x2 x3 x4 x5 x6 x7 x8
  | set_cpp_name v => mk l0 x1 v x3 x4 x5 x6 x7 x8
  | set_description v => mk l0 x1 x2 v x4 x5 x6 x7 x8
  | set_strict v => mk l0 x1 x2 x3 v x5 x6 x7 x8
  | set_immutable v => mk l0 x1 x2 x3 x4 v x6 x7 x8
  | set_inline_chained_structs v => mk l0 x1 x2 x3 x4 x5 v x7 x8
  | set_generate_comparison_operators v => mk l0 x1 x2 x3 x4 x5 x6 v x8
  | set_fields v => mk l0 x1 x2 x3 x4 x5 x6 x7 v
  end.

#[global] Instance node : Node t assignment :=
  {| location := loc; setattr := assign |}.

(** [self.fields.append(field)] *)
Definition append_field (self : t) (field : Field.t) : t :=
  assign self (set_fields (fields self ++ [field])).

End Struct.

(** ** class EnumValue *)

Module EnumValue.

(** class EnumValue(common.SourceLocation): IDL enum value information. *)
Record t : Type := mk {
  loc : common.SourceLocation;
  name : option string;
  value : option string
}.

(** [EnumValue.__init__(self, file_name, line, column)] *)
Definition init (file_name : string) (line column : Z) : t :=
  {| loc := common.SourceLocation_init file_name line column;
     name := None;
     value := None |}.

(** [self.<attribute> = v], one constructor per attribute of the class. *)
Inductive assignment : Type :=
| set_name (v : option string)
| set_value (v : option string).

Definition assign (self : t) (a : assignment) : t :=
  let '(mk l0 x1 x2) := self in
  match a with
  | set_name v => mk l0 v x2
  | set_value v => mk l0 x1 v
  end.

#[global] Instance node : Node t assignment :=
  {| location := loc; setattr := assign |}.

End EnumValue.

(** ** class Enum *)

Module Enum.

(** class Enum(common.SourceLocation): IDL enum information. *)
Record t : Type := mk {
  loc : common.SourceLocation;
  name : option string;
  description : option string;
  cpp_namespace : option string;
  type : option string;
  values : list EnumValue.t
}.

(** [Enum.__init__(self, file_name, line, column)] *)
Definition init (file_name : string) (line column : Z) : t :=
  {| loc := common.SourceLocation_init file_name line column;
     name := None;
     description := None;
     cpp_namespace := None;
     type := None;
     values := [] |}.

(** [self.<attribute> = v], one constructor per attribute of the class. *)
Inductive assignment : Type :=
| set_name (v : option string)
| set_description (v : option string)
| set_cpp_namespace (v : option string)
| set_type (v : option string)
| set_values (v : list EnumValue.t).

Definition assign (self : t) (a : assignment) : t :=
  let '(mk l0 x1 x2 x3 x4 x5) := self in
  match a with
  | set_name v => mk l0 v x2 x3 x4 x5
  | set_description v => mk l0 x1 v x3 x4 x5
  | set_cpp_namespace v => mk l0 x1 x2 v x4 x5
  | set_type v => mk l0 x1 x2 x3 v x5
  | set_values v => mk l0 x1 x2 x3 x4 v
  end.

#[global] Instance node : Node t assignment :=
  {| location := loc; setattr := assign |}.

(** [self.values.append(value)] *)
Definition append_value (self : t) (value : EnumValue.t) : t :=
  assign self (set_values (values self ++ [value])).

End Enum.

(** ** class ServerParameter *)

Module ServerParameter.

(** class ServerParameter(common.SourceLocation): IDL ServerParameter setting.
    The source comments [default], [validator], [on_update] as only valid if
    [cpp_varname] is specified and [from_bson], [append_bson], [from_string] as
    required if it is not; the constructor sets all of them to [None]. *)
Record t : Type := mk {
  loc : common.SourceLocation;
  name : option string;
  set_at : option string;
  description : option string;
  cpp_vartype : option string;
  cpp_varname : option string;
  condition : option Condition.t;
  redact : bool;
  deprecated_name : list string;
  default : option string;
  validator : option Validator.t;
  on_update : option string;
  from_bson : option string;
  append_bson : option string;
  from_string : option string
}.

(** [ServerParameter.__init__(self, file_name, line, column)] *)
Definition init (file_name : string) (line column : Z) : t :=
  {| loc := common.SourceLocation_init file_name line column;
     name := None;
     set_at := None;
     description := None;
     cpp_vartype := None;
     cpp_varname := None;
     condition := None;
     redact := false;
     deprecated_name := [];
     default := None;
     validator := None;
     on_update := None;
     from_bson := None;
     append_bson := None;
     from_string := None |}.

(** [self.<attribute> = v], one constructor per attribute of the class. *)
Inductive assignment : Type :=
| set_name (v : option string)
| set_set_at (v : option string)
| set_description (v : option string)
| set_cpp_vartype (v : option string)
| set_cpp_varname (v : option string)
| set_condition (v : option Condition.t)
| set_redact (v : bool)
| set_deprecated_name (v : list string)
| set_default (v : option string)
| set_validator (v : option Validator.t)
| set_on_update (v : option string)
| set_from_bson (v : option string)
| set_append_bson (v : option string)
| set_from_string (v : option string).

Definition assign (self : t) (a : assignment) : t :=
  let '(mk l0 x1 x2 x3 x4 x5 x6 x7 x8 x9 x10 x11 x12 x13 x14) := self in
  match a with
  | set_name v => mk l0 v x2 x3 x4 x5 x6 x7 x8 x9 x10 x11 x12 x13 x14
  | set_set_at v => mk l0 x1 v x3 x4 x5 x6 x7 x8 x9 x10 x11 x12 x13 x14
  | set_description v => mk l0 x1 x2 v x4 x5 x6 x7 x8 x9 x10 x11 x12 x13 x14
  | set_cpp_vartype v => mk l0 x1 x2 x3 v x5 x6 x7 x8 x9 x10 x11 x12 x13 x14
  | set_cpp_varname v => mk l0 x1 x2 x3 x4 v x6 x7 x8 x9 x10 x11 x12 x13 x14
  | set_condition v => mk l0 x1 x2 x3 x4 x5 v x7 x8 x9 x10 x11 x12 x13 x14
  | set_redact v => mk l0 x1 x2 x3 x4 x5 x6 v x8 x9 x10 x11 x12 x13 x14
  | set_deprecated_name v => mk l0 x1 x2 x3 x4 x5 x6 x7 v x9 x10 x11 x12 x13 x14
  | set_default v => mk l0 x1 x2 x3 x4 x5 x6 x7 x8 v x10 x11 x12 x13 x14
  | set_validator v => mk l0 x1 x2 x3 x4 x5 x6 x7 x8 x9 v x11 x12 x13 x14
  | set_on_update v => mk l0 x1 x2 x3 x4 x5 x6 x7 x8 x9 x10 v x12 x13 x14
  | set_from_bson v => mk l0 x1 x2 x3 x4 x5 x6 x7 x8 x9 x10 x11 v x13 x14
  | set_append_bson v => mk l0 x1 x2 x3 x4 x5 x6 x7 x8 x9 x10 x11 x12 v x14
  | set_from_string v => mk l0 x1 x2 x3 x4 x5 x6 x7 x8 x9 x10 x11 x12 x13 v
  end.

#[global] Instance node : Node t assignment :=
  {| location := loc; setattr := assign |}.

End ServerParameter.

(** ** class ConfigOption *)

Module ConfigOption.

(** class ConfigOption(common.SourceLocation): IDL ConfigOption setting.  The
    class declares no from_bson, append_bson or from_string attribute. *)
Record t : Type := mk {
  loc : common.SourceLocation;
  name : option string;
  short_name : option string;
  deprecated_name : list string;
  deprecated_short_name : list string;
  description : option string;
  section : option string;
  arg_vartype : option string;
  cpp_vartype : option string;
  cpp_varname : option string;
  condition : option Condition.t;
  conflicts : list string;
  requires : list string;
  hidden : bool;
  redact : bool;
  default : option string;
  implicit : option string;
  source : option string;
  duplicates_append : bool;
  positional_start : option Z;
  positional_end : option Z;
  validator : option Validator.t
}.

(** [ConfigOption.__init__(self, file_name, line, column)] *)
Definition init (file_name : string) (line column : Z) : t :=
  {| loc := common.SourceLocation_init file_name line column;
     name := None;
     short_name := None;
     deprecated_name := [];
     deprecated_short_name := [];
     description := None;
     section := None;
     arg_vartype := None;
     cpp_vartype := None;
     cpp_varname := None;
     condition := None;
     conflicts := [];
     requires := [];
     hidden := false;
     redact := false;
     default := None;
     implicit := None;
     source := None;
     duplicates_append := false;
     positional_start := None;
     positional_end := None;
     validator := None |}.

(** [self.<attribute> = v], one constructor per attribute of the class. *)
Inductive assignment : Type :=
| set_name (v : option string)
| set_short_name (v : option string)
| set_deprecated_name (v : list string)
| set_deprecated_short_name (v : list string)
| set_description (v : option string)
| set_section (v : option string)
| set_arg_vartype (v : option string)
| set_cpp_vartype (v : option string)
| set_cpp_varname (v : option string)
| set_condition (v : option Condition.t)
| set_conflicts (v : list string)
| set_requires (v : list string)
| set_hidden (v : bool)
| set_redact (v : bool)
| set_default (v : option string)
| set_implicit (v : option string)
| set_source (v : option string)
| set_duplicates_append (v : bool)
| set_positional_start (v : option Z)
| set_positional_end (v : option Z)
| set_validator (v : option Validator.t).

Definition assign (self : t) (a : assignment) : t :=
  let '(mk l0 x1 x2 x3 x4 x5 x6 x7 x8 x9 x10 x11 x12 x13 x14 x15 x16 x17 x18 x19 x20 x21) := self in
  match a with
  | set_name v => mk l0 v x2 x3 x4 x5 x6 x7 x8 x9 x10 x11 x12 x13 x14 x15 x16 x17 x18 x19 x20
      x21
  | set_short_name v => mk l0 x1 v x3 x4 x5 x6 x7 x8 x9 x10 x11 x12 x13 x14 x15 x16 x17 x18 x19
      x20 x21
  | set_deprecated_name v => mk l0 x1 x2 v x4 x5 x6 x7 x8 x9 x10 x11 x12 x13 x14 x15 x16 x17 x18
      x19 x20 x21
  | set_deprecated_short_name v => mk l0 x1 x2 x3 v x5 x6 x7 x8 x9 x10 x11 x12 x13 x14 x15 x16
      x17 x18 x19 x20 x21
  | set_description v => mk l0 x1 x2 x3 x4 v x6 x7 x8 x9 x10 x11 x12 x13 x14 x15 x16 x17 x18 x19
      x20 x21
  | set_section v => mk l0 x1 x2 x3 x4 x5 v x7 x8 x9 x10 x11 x12 x13 x14 x15 x16 x17 x18 x19 x20
      x21
  | set_arg_vartype v => mk l0 x1 x2 x3 x4 x5 x6 v x8 x9 x10 x11 x12 x13 x14 x15 x16 x17 x18 x19
      x20 x21
  | set_cpp_vartype v => mk l0 x1 x2 x3 x4 x5 x6 x7 v x9 x10 x11 x12 x13 x14 x15 x16 x17 x18 x19
      x20 x21
  | set_cpp_varname v => mk l0 x1 x2 x3 x4 x5 x6 x7 x8 v x10 x11 x12 x13 x14 x15 x16 x17 x18 x19
      x20 x21
  | set_condition v => mk l0 x1 x2 x3 x4 x5 x6 x7 x8 x9 v x11 x12 x13 x14 x15 x16 x17 x18 x19
      x20 x21
  | set_conflicts v => mk l0 x1 x2 x3 x4 x5 x6 x7 x8 x9 x10 v x12 x13 x14 x15 x16 x17 x18 x19
      x20 x21
  | set_requires v => mk l0 x1 x2 x3 x4 x5 x6 x7 x8 x9 x10 x11 v x13 x14 x15 x16 x17 x18 x19 x20
      x21
  | set_hidden v => mk l0 x1 x2 x3 x4 x5 x6 x7 x8 x9 x10 x11 x12 v x14 x15 x16 x17 x18 x19 x20
      x21
  | set_redact v => mk l0 x1 x2 x3 x4 x5 x6 x7 x8 x9 x10 x11 x12 x13 v x15 x16 x17 x18 x19 x20
      x21
  | set_default v => mk l0 x1 x2 x3 x4 x5 x6 x7 x8 x9 x10 x11 x12 x13 x14 v x16 x17 x18 x19 x20
      x21
  | set_implicit v => mk l0 x1 x2 x3 x4 x5 x6 x7 x8 x9 x10 x11 x12 x13 x14 x15 v x17 x18 x19 x20
      x21
  | set_source v => mk l0 x1 x2 x3 x4 x5 x6 x7 x8 x9 x10 x11 x12 x13 x14 x15 x16 v x18 x19 x20
      x21
  | set_duplicates_append v => mk l0 x1 x2 x3 x4 x5 x6 x7 x8 x9 x10 x11 x12 x13 x14 x15 x16 x17
      v x19 x20 x21
  | set_positional_start v => mk l0 x1 x2 x3 x4 x5 x6 x7 x8 x9 x10 x11 x12 x13 x14 x15 x16 x17
      x18 v x20 x21
  | set_positional_end v => mk l0 x1 x2 x3 x4 x5 x6 x7 x8 x9 x10 x11 x12 x13 x14 x15 x16 x17 x18
      x19 v x21
  | set_validator v => mk l0 x1 x2 x3 x4 x5 x6 x7 x8 x9 x10 x11 x12 x13 x14 x15 x16 x17 x18 x19
      x20 v
  end.

#[global] Instance node : Node t assignment :=
  {| location := loc; setattr := assign |}.

End ConfigOption.

(** ** class Command *)

Module Command.

(** class Command(Struct): IDL command information.  The inherited part is
    the embedded [Struct.t]; [Command.__init__] sets its own two attributes
    and then runs [Struct.__init__] on the same object. *)
Record t : Type := mk {
  namespace : option string;
  command_field : option Field.t;
  struct : Struct.t
}.

(** [Command.__init__(self, file_name, line, column)] *)
Definition init (file_name : string) (line column : Z) : t :=
  {| namespace := None;
     command_field := None;
     struct := Struct.init file_name line column |}.

(** [self.<attribute> = v]: the two attributes of Command and, through
    [set_inherited], those it inherits from Struct. *)
Inductive assignment : Type :=
| set_namespace (v : option string)
| set_command_field (v : option Field.t)
| set_inherited (a : Struct.assignment).

Definition assign (self : t) (a : assignment) : t :=
  let '(mk x1 x2 s) := self in
  match a with
  | set_namespace v => mk v x2 s
  | set_command_field v => mk x1 v s
  | set_inherited a' => mk x1 x2 (Struct.assign s a')
  end.

Definition loc (self : t) : common.SourceLocation := Struct.loc (struct self).

(** [self.fields.append(field)], on the inherited list. *)
Definition append_field (self : t) (field : Field.t) : t :=
  assign self (set_inherited (Struct.set_fields (Struct.fields (struct self) ++ [field]))).

#[global] Instance node : Node t assignment :=
  {| location := loc; setattr := assign |}.

End Command.

(** ** class IDLAST *)

Module IDLAST.

(** class IDLAST(object): the in-memory representation of an IDL file.  It is
    not derived from SourceLocation. *)
Record t : Type := mk {
  globals : option Global.t;
  commands : list Command.t;
  enums : list Enum.t;
  structs : list Struct.t;
  server_parameters : list ServerParameter.t;
  configs : list ConfigOption.t
}.

(** [IDLAST.__init__(self)] *)
Definition init : t :=
  {| globals := None;
     commands := [];
     enums := [];
     structs := [];
     server_parameters := [];
     configs := [] |}.

Inductive assignment : Type :=
| set_globals (v : option Global.t)
| set_commands (v : list Command.t)
| set_enums (v : list Enum.t)
| set_structs (v : list Struct.t)
| set_server_parameters (v : list ServerParameter.t)
| set_configs (v : list ConfigOption.t).

Definition assign (self : t) (a : assignment) : t :=
  let '(mk x1 x2 x3 x4 x5 x6) := self in
  match a with
  | set_globals v => mk v x2 x3 x4 x5 x6
  | set_commands v => mk x1 v x3 x4 x5 x6
  | set_enums v => mk x1 x2 v x4 x5 x6
  | set_structs v => mk x1 x2 x3 v x5 x6
  | set_server_parameters v => mk x1 x2 x3 x4 v x6
  | set_configs v => mk x1 x2 x3 x4 x5 v
  end.

(** [self.structs.append(struct)] and its siblings. *)
Definition append_struct (self : t) (struct : Struct.t) : t :=
  assign self (set_structs (structs self ++ [struct])).

Definition append_command (self : t) (command : Command.t) : t :=
  assign self (set_commands (commands self ++ [command])).

Definition append_enum (self : t) (enum : Enum.t) : t :=
  assign self (set_enums (enums self ++ [enum])).

Definition append_server_parameter (self : t) (param : ServerParameter.t) : t :=
  assign self (set_server_parameters (server_parameters self ++ [param])).

Definition append_config (self : t) (config : ConfigOption.t) : t :=
  assign self (set_configs (configs self ++ [config])).



End IDLAST.

(** ** class IDLBoundSpec *)

Module IDLBoundSpec.

(** class IDLBoundSpec(object): a bound IDL document or a set of errors if
    parsing failed.  The constructor stores what it is given; [A] is what
    stands for the document (the IDLAST itself, or a reference to it in a
    store) and [E] the error collection. *)
Record t (A E : Type) : Type := mk {
  spec : option A;
  errors : option E
}.
Arguments mk {A E} spec errors.
Arguments spec {A E} self : rename.
Arguments errors {A E} self : rename.

(** [IDLBoundSpec.__init__(self, spec, error_collection)]:
<<
    assert (spec is None and error_collection is not None) or (spec is not None
                                                               and error_collection is None)
    self.spec = spec
    self.errors = error_collection
>>
    The embedding is of a run with assertions enabled, Python's default. *)
Definition init {A E : Type} (spec : option A) (error_collection : option E) : result (t A E) :=
  if (is_None spec && is_not_None error_collection)
     || (is_not_None spec && is_None error_collection)
  then Ok {| spec := spec; errors := error_collection |}
  else Raise AssertionError.

End IDLBoundSpec.

(** ** Objects held by reference *)

(** [IDLBoundSpec.__init__] stores the reference it is given: the IDLAST of a
    bound spec is the very object its builder still holds.  Where that
    sharing matters objects live in a store, a constructor call allocates
    one, and a bound spec holds the reference of its document.  An attribute
    that holds nodes holds them by value, as in the records above. *)
Module Store.

Abbreviation ref := positive.

Inductive object : Type :=
| OIDLAST (ast : IDLAST.t)
| OIDLBoundSpec (bound : IDLBoundSpec.t ref errors.ParserErrorCollection)
| OGlobal (n : Global.t)
| OStruct (n : Struct.t)
| OCommand (n : Command.t)
| OField (n : Field.t)
| OValidator (n : Validator.t)
| OEnum (n : Enum.t)
| OEnumValue (n : EnumValue.t)
| OCondition (n : Condition.t)
| OServerParameter (n : ServerParameter.t)
| OConfigGlobal (n : ConfigGlobal.t)
| OConfigOption (n : ConfigOption.t).

Abbreviation store := (gmap positive object).

(** What a call of a constructor of [ast.py] leaves in the new object: one
    rule per class.  The call of [IDLBoundSpec] yields an object only when
    its assertion passes. *)
Inductive constructed : object → Prop :=
| constructed_IDLAST :
    constructed (OIDLAST IDLAST.init)
| constructed_IDLBoundSpec spec error_collection bound :
    IDLBoundSpec.init spec error_collection = Ok bound →
    constructed (OIDLBoundSpec bound)
| constructed_Global file_name line column :
    constructed (OGlobal (Global.init file_name line column))
| constructed_Struct file_name line column :
    constructed (OStruct (Struct.init file_name line column))
| constructed_Command file_name line column :
    constructed (OCommand (Command.init file_name line column))
| constructed_Field file_name line column :
    constructed (OField (Field.init file_name line column))
| constructed_Validator file_name line column :
    constructed (OValidator (Validator.init file_name line column))
| constructed_Enum file_name line column :
    constructed (OEnum (Enum.init file_name line column))
| constructed_EnumValue file_name line column :
    constructed (OEnumValue (EnumValue.init file_name line column))
| constructed_Condition file_name line column :
    constructed (OCondition (Condition.init file_name line column))
| constructed_ServerParameter file_name line column :
    constructed (OServerParameter (ServerParameter.init file_name line column))
| constructed_ConfigGlobal file_name line column :
    constructed (OConfigGlobal (ConfigGlobal.init file_name line column))
| constructed_ConfigOption file_name line column :
    constructed (OConfigOption (ConfigOption.init file_name line column)).





End Store.

(** ** The invariants the bound AST is expected to satisfy, as predicates *)

(** Exactly one of [spec] and [errors] is populated. *)
Definition exactly_one_populated {A E : Type} (bound : IDLBoundSpec.t A E) : bool :=
  xorb (is_not_None (IDLBoundSpec.spec bound)) (is_not_None (IDLBoundSpec.errors bound)).

(** At least one of the five predicates of a validator is present. *)
Definition validator_nonempty (v : Validator.t) : bool :=
  is_not_None (Validator.gt v) || is_not_None (Validator.lt v)
  || is_not_None (Validator.gte v) || is_not_None (Validator.lte v)
  || is_not_None (Validator.callback v).












(** A node class whose constructor and later assignments leave the position
    given at construction readable, component by component. *)
Definition keeps_position {T A : Type} `{Node T A} (init : string → Z → Z → T) : Prop :=
  ∀ (file_name : string) (line column : Z) (assignments : list A),
    let n := assign_all (init file_name line column) assignments in
    common.file_name (location n) = file_name
    ∧ common.line (location n) = line
    ∧ common.column (location n) = column.

(** ** Concrete documents *)

(** A document with one struct, built the way a client of the classes builds
    it: construct, assign, append. *)
Definition struct_of_fields (name : string) (line : Z) (fields : list Field.t) : Struct.t :=
  foldl Struct.append_field
        (setattr (Struct.init "example.idl" line 5) (Struct.set_name (Some name)))
        fields.



(** [Validator("example.idl", 12, 9)], nothing assigned. *)
Definition empty_validator : Validator.t := Validator.init "example.idl" 12 9.
















Definition late_struct : Struct.t := struct_of_fields "Late" 9 [].


(** ** Filling a document *)

(** The five things a client appends to the lists of an IDLAST, and a run of
    such appends in program order. *)
Inductive entity : Type :=
| ECommand (command : Command.t)
| EEnum (enum : Enum.t)
| EStruct (struct : Struct.t)
| EServerParameter (param : ServerParameter.t)
| EConfigOption (config : ConfigOption.t).

Definition append_entity (ast : IDLAST.t) (e : entity) : IDLAST.t :=
  match e with
  | ECommand c => IDLAST.append_command ast c
  | EEnum x => IDLAST.append_enum ast x
  | EStruct x => IDLAST.append_struct ast x
  | EServerParameter x => IDLAST.append_server_parameter ast x
  | EConfigOption x => IDLAST.append_config ast x
  end.

Definition append_entities (ast : IDLAST.t) (es : list entity) : IDLAST.t :=
  foldl append_entity ast es.

(** The entities of one kind in a run, in the order of the run. *)
Definition commands_of (es : list entity) : list Command.t :=
  omap (λ e, match e with ECommand x => Some x | _ => None end) es.

Definition enums_of (es : list entity) : list Enum.t :=
  omap (λ e, match e with EEnum x => Some x | _ => None end) es.

Definition structs_of (es : list entity) : list Struct.t :=
  omap (λ e, match e with EStruct x => Some x | _ => None end) es.

Definition server_parameters_of (es : list entity) : list ServerParameter.t :=
  omap (λ e, match e with EServerParameter x => Some x | _ => None end) es.

Definition configs_of (es : list entity) : list ConfigOption.t :=
  omap (λ e, match e with EConfigOption x => Some x | _ => None end) es.

(** An assignment to a validator that leaves the assigned predicate absent
    ([v.gt = None]). *)
Definition clears_predicate (a : Validator.assignment) : bool :=
  match a with
  | Validator.set_gt v | Validator.set_lt v
  | Validator.set_gte v | Validator.set_lte v => is_None v
  | Validator.set_callback v => is_None v
  end.

(** Two runs that append the same entities, a struct and an enum, in
    opposite orders. *)
Definition struct_then_enum : list entity :=
  [EStruct late_struct; EEnum (Enum.init "example.idl" 30 5)].

Definition enum_then_struct : list entity :=
  [EEnum (Enum.init "example.idl" 30 5); EStruct late_struct].

(** A validator with a lower bound assigned, and a run of two assignments
    that keep their predicates present. *)
Definition lower_bound_validator : Validator.t :=
  setattr empty_validator (Validator.set_gte (Some (Int 0))).

Definition bound_assignments : list Validator.assignment :=
  [Validator.set_lt (Some (Int 100)); Validator.set_callback (Some "validateLevel")].

(** * Properties *)

(** ** Assignments and the source position *)

#[global] Instance Validator_laws : NodeLaws Validator.t Validator.assignment.
Proof. by intros [] []. Qed.
#[global] Instance Condition_laws : NodeLaws Condition.t Condition.assignment.
Proof. by intros [] []. Qed.
#[global] Instance ConfigGlobal_laws : NodeLaws ConfigGlobal.t ConfigGlobal.assignment.
Proof. by intros [] []. Qed.
#[global] Instance Global_laws : NodeLaws Global.t Global.assignment.
Proof. by intros [] []. Qed.
#[global] Instance Field_laws : NodeLaws Field.t Field.assignment.
Proof. by intros [] []. Qed.
#[global] Instance Struct_laws : NodeLaws Struct.t Struct.assignment.
Proof. by intros [] []. Qed.
#[global] Instance EnumValue_laws : NodeLaws EnumValue.t EnumValue.assignment.
Proof. by intros [] []. Qed.
#[global] Instance Enum_laws : NodeLaws Enum.t Enum.assignment.
Proof. by intros [] []. Qed.
#[global] Instance ServerParameter_laws : NodeLaws ServerParameter.t ServerParameter.assignment.
Proof. by intros [] []. Qed.
#[global] Instance ConfigOption_laws : NodeLaws ConfigOption.t ConfigOption.assignment.
Proof. by intros [] []. Qed.

(** Command inherits the position of its Struct part: an assignment to one of
    its own attributes leaves that part alone, an assignment to an inherited
    one is Struct's. *)
#[global] Instance Command_laws : NodeLaws Command.t Command.assignment.
Proof.
  intros [ns cf s] [v|v|a]; try done.
  exact (setattr_location (T := Struct.t) s a).
Qed.

Section node_laws.
Context {T A : Type} `{NodeLaws T A}.

Lemma assign_all_location (n : T) (assignments : list A) :
  location (assign_all n assignments) = location n.
Proof.
  unfold assign_all. revert n.
  induction assignments as [|a l IH]; intros n; simpl; [done|].
  by rewrite IH, setattr_location.
Qed.

End node_laws.

(** ** IDLBoundSpec *)

(** The assertion of the constructor passes exactly when one of its two
    arguments is [None] and the other is not. *)
Lemma IDLBoundSpec_init_ok {A E : Type} (spec : option A) (error_collection : option E) :
  xorb (is_not_None spec) (is_not_None error_collection) = true →
  IDLBoundSpec.init spec error_collection = Ok (IDLBoundSpec.mk spec error_collection).
Proof. by destruct spec, error_collection. Qed.

Lemma IDLBoundSpec_init_raises {A E : Type} (spec : option A) (error_collection : option E) :
  xorb (is_not_None spec) (is_not_None error_collection) = false →
  IDLBoundSpec.init spec error_collection = Raise AssertionError.
Proof. by destruct spec, error_collection. Qed.


(** C1.  Constructing an IDLBoundSpec succeeds if and only if exactly one of
    [spec] and [error_collection] is not [None]; with both or neither it
    raises (the [assert] fails); on success the object holds the two
    arguments as given, hence exactly the one populated branch. *)
Theorem IDLBoundSpec_init_exactly_one {A E : Type}
    (spec : option A) (error_collection : option E) :
  (succeeds (IDLBoundSpec.init spec error_collection)
   ↔ xorb (is_not_None spec) (is_not_None error_collection) = true)
  ∧ ((is_not_None spec = is_not_None error_collection)
     ↔ IDLBoundSpec.init spec error_collection = Raise AssertionError)
  ∧ (∀ bound, IDLBoundSpec.init spec error_collection = Ok bound →
       IDLBoundSpec.spec bound = spec
       ∧ IDLBoundSpec.errors bound = error_collection
       ∧ exactly_one_populated bound = true).
Proof.
  split; [|split].
  - split.
    + intros [bound Hb]. destruct spec, error_collection; done.
    + intros Hx. exists (IDLBoundSpec.mk spec error_collection).
      by apply IDLBoundSpec_init_ok.
  - split.
    + intros Heq. apply IDLBoundSpec_init_raises. rewrite Heq. apply xorb_nilpotent.
    + destruct spec, error_collection; done.
  - intros bound Hb.
    destruct spec, error_collection; unfold IDLBoundSpec.init in Hb; simpl in Hb;
      inversion Hb; done.
Qed.

(** ** Struct *)

(** C10.  A freshly constructed Struct is strict, has the three other policy
    flags off and no fields; the same holds of the Struct part of a freshly
    constructed Command.  Strictness stays until it is assigned. *)
Theorem Struct_init_defaults (file_name : string) (line column : Z) :
  let s := Struct.init file_name line column in
  (Struct.strict s = true
   ∧ Struct.immutable s = false
   ∧ Struct.inline_chained_structs s = false
   ∧ Struct.generate_comparison_operators s = false
   ∧ Struct.fields s = [])
  ∧ Command.struct (Command.init file_name line column) = s
  ∧ (∀ b, Struct.strict (setattr s (Struct.set_strict b)) = b).
Proof. done. Qed.

(** ** Validator *)

(** C2, as the code has it.  The constructor of Validator takes a position
    only, never fails, and leaves all five predicates absent: the object it
    returns is the empty validator.  A validator carries a predicate once one
    is assigned to it. *)
Theorem Validator_init_all_absent (file_name : string) (line column : Z) :
  let v := Validator.init file_name line column in
  (Validator.gt v = None ∧ Validator.lt v = None ∧ Validator.gte v = None
   ∧ Validator.lte v = None ∧ Validator.callback v = None)
  ∧ validator_nonempty v = false
  ∧ (∀ x, validator_nonempty (setattr v (Validator.set_gt (Some x))) = true)
  ∧ (∀ x, validator_nonempty (setattr v (Validator.set_lt (Some x))) = true)
  ∧ (∀ x, validator_nonempty (setattr v (Validator.set_gte (Some x))) = true)
  ∧ (∀ x, validator_nonempty (setattr v (Validator.set_lte (Some x))) = true)
  ∧ (∀ x, validator_nonempty (setattr v (Validator.set_callback (Some x))) = true).
Proof. done. Qed.

(** C2 fails as stated: [Validator("example.idl", 12, 9)] is constructed, and
    none of its five predicates is present. *)
Lemma Validator_init_empty_counterexample :
  empty_validator = Validator.mk (common.mkSourceLocation "example.idl" 12 9) None None None None None
  ∧ validator_nonempty empty_validator = false.
Proof. done. Qed.

(** ** Source positions *)

Lemma init_keeps_position {T A : Type} `{NodeLaws T A} (init : string → Z → Z → T) :
  (∀ file_name line column,
     location (init file_name line column)
     = common.SourceLocation_init file_name line column) →
  keeps_position init.
Proof.
  intros Hinit file_name line column assignments. simpl.
  by rewrite assign_all_location, Hinit.
Qed.

(** C7.  Each of the eleven node classes passes the file name, line and
    column of its constructor call to SourceLocation, and the three are read
    back unchanged from the constructed node, also after any assignments to
    the attributes the class declares.  IDLAST and IDLBoundSpec are not
    derived from SourceLocation and have no position. *)
Theorem nodes_keep_position :
  keeps_position Global.init
  ∧ keeps_position Struct.init
  ∧ keeps_position Command.init
  ∧ keeps_position Field.init
  ∧ keeps_position Validator.init
  ∧ keeps_position Enum.init
  ∧ keeps_position EnumValue.init
  ∧ keeps_position Condition.init
  ∧ keeps_position ServerParameter.init
  ∧ keeps_position ConfigGlobal.init
  ∧ keeps_position ConfigOption.init.
Proof. repeat split; by apply init_keeps_position. Qed.

(** ** Field *)









(** ** ServerParameter and ConfigOption *)



(** ** The fields of a Struct *)

Lemma fields_foldl_append_field (s : Struct.t) (fs : list Field.t) :
  Struct.fields (foldl Struct.append_field s fs) = (Struct.fields s ++ fs)%list.
Proof.
  revert s. induction fs as [|f fs IH]; intros s; simpl.
  - by rewrite app_nil_r.
  - rewrite IH. destruct s; simpl. by rewrite <- app_assoc.
Qed.



(** ** Objects held by reference *)







(** * Further properties of the constructors and the lists they create *)

(** ** Appending to the lists of Enum, Struct and Command *)

(** X1.  Appending values to an Enum adds them at the end of [values], in the
    order of the appends, and changes no other attribute nor the position;
    from a freshly constructed Enum the values read back are the appended
    ones. *)
Theorem Enum_values_append_order (e : Enum.t) (vs : list EnumValue.t) :
  foldl Enum.append_value e vs
  = Enum.mk (Enum.loc e) (Enum.name e) (Enum.description e) (Enum.cpp_namespace e)
            (Enum.type e) (Enum.values e ++ vs)%list
  ∧ (∀ file_name line column,
       Enum.values (foldl Enum.append_value (Enum.init file_name line column) vs) = vs).
Proof.
  assert (∀ e0, foldl Enum.append_value e0 vs
                = Enum.mk (Enum.loc e0) (Enum.name e0) (Enum.description e0)
                          (Enum.cpp_namespace e0) (Enum.type e0) (Enum.values e0 ++ vs)%list)
    as Hall.
  { induction vs as [|v vs IH]; intros e0; simpl.
    - destruct e0; simpl. by rewrite app_nil_r.
    - rewrite IH. destruct e0; simpl. by rewrite <- app_assoc. }
  split; [apply Hall|]. intros file_name line column. by rewrite Hall.
Qed.

Lemma Struct_foldl_append_field (s : Struct.t) (fs : list Field.t) :
  foldl Struct.append_field s fs
  = Struct.mk (Struct.loc s) (Struct.name s) (Struct.cpp_name s) (Struct.description s)
              (Struct.strict s) (Struct.immutable s) (Struct.inline_chained_structs s)
              (Struct.generate_comparison_operators s) (Struct.fields s ++ fs)%list.
Proof.
  revert s. induction fs as [|f fs IH]; intros s; simpl.
  - destruct s; simpl. by rewrite app_nil_r.
  - rewrite IH. destruct s; simpl. by rewrite <- app_assoc.
Qed.

(** X2.  Appending fields to a Struct changes nothing but [fields]: the name,
    the description, the four policy flags and the position are those of the
    struct before, and the number of fields grows by the number appended. *)
Theorem Struct_append_frame (s : Struct.t) (fs : list Field.t) :
  let s' := foldl Struct.append_field s fs in
  Struct.name s' = Struct.name s
  ∧ Struct.cpp_name s' = Struct.cpp_name s
  ∧ Struct.description s' = Struct.description s
  ∧ Struct.strict s' = Struct.strict s
  ∧ Struct.immutable s' = Struct.immutable s
  ∧ Struct.inline_chained_structs s' = Struct.inline_chained_structs s
  ∧ Struct.generate_comparison_operators s' = Struct.generate_comparison_operators s
  ∧ location s' = location s
  ∧ length (Struct.fields s') = (length (Struct.fields s) + length fs)%nat.
Proof.
  simpl. rewrite Struct_foldl_append_field. simpl.
  repeat split. apply length_app.
Qed.

(** X3.  Appending fields to a Command goes to the list it inherits from
    Struct: the fields come back in the order of the appends after those
    already there, the Struct part is the one the same appends give on a
    Struct, and [namespace], [command_field] and the position are
    unchanged. *)
Theorem Command_append_field_inherited (c : Command.t) (fs : list Field.t) :
  let c' := foldl Command.append_field c fs in
  Command.struct c' = foldl Struct.append_field (Command.struct c) fs
  ∧ Struct.fields (Command.struct c') = (Struct.fields (Command.struct c) ++ fs)%list
  ∧ Command.namespace c' = Command.namespace c
  ∧ Command.command_field c' = Command.command_field c
  ∧ location c' = location c.
Proof.
  simpl.
  assert (∀ c0, foldl Command.append_field c0 fs
                = Command.mk (Command.namespace c0) (Command.command_field c0)
                             (foldl Struct.append_field (Command.struct c0) fs)) as Hall.
  { induction fs as [|f fs IH]; intros c0; simpl.
    - by destruct c0.
    - rewrite IH. by destruct c0. }
  rewrite Hall. simpl. split; [done|]. split; [apply fields_foldl_append_field|].
  split; [done|]. split; [done|].
  unfold Command.loc. simpl. by rewrite Struct_foldl_append_field.
Qed.

(** ** Filling the lists of an IDLAST *)

Lemma append_entities_by_kind (ast : IDLAST.t) (es : list entity) :
  append_entities ast es
  = IDLAST.mk (IDLAST.globals ast)
              (IDLAST.commands ast ++ commands_of es)%list
              (IDLAST.enums ast ++ enums_of es)%list
              (IDLAST.structs ast ++ structs_of es)%list
              (IDLAST.server_parameters ast ++ server_parameters_of es)%list
              (IDLAST.configs ast ++ configs_of es)%list.
Proof.
  unfold append_entities. revert ast.
  induction es as [|e es IH]; intros ast; simpl.
  - destruct ast; simpl. by rewrite !app_nil_r.
  - rewrite IH. destruct ast, e; simpl; by rewrite <- ?app_assoc.
Qed.

(** X4.  After any run of appends to the five lists of an IDLAST, each list
    holds what it held before followed by the appended entities of its kind,
    in the order of the run; [globals] is unchanged, and nothing that was in
    a list is removed or moved.  From a freshly constructed IDLAST each list
    is exactly the appended entities of its kind. *)
Theorem IDLAST_appends_by_kind (ast : IDLAST.t) (es : list entity) :
  let ast' := append_entities ast es in
  (IDLAST.globals ast' = IDLAST.globals ast
   ∧ IDLAST.commands ast' = (IDLAST.commands ast ++ commands_of es)%list
   ∧ IDLAST.enums ast' = (IDLAST.enums ast ++ enums_of es)%list
   ∧ IDLAST.structs ast' = (IDLAST.structs ast ++ structs_of es)%list
   ∧ IDLAST.server_parameters ast' = (IDLAST.server_parameters ast ++ server_parameters_of es)%list
   ∧ IDLAST.configs ast' = (IDLAST.configs ast ++ configs_of es)%list)
  ∧ append_entities IDLAST.init es
    = IDLAST.mk None (commands_of es) (enums_of es) (structs_of es)
                (server_parameters_of es) (configs_of es).
Proof.
  simpl. rewrite !append_entities_by_kind. simpl. by repeat split.
Qed.

(** X5.  An IDLAST keeps the order of the entities within each of its five
    lists and nothing about the order between lists: two runs of appends
    whose entities agree kind by kind give the same document. *)
Theorem IDLAST_order_between_lists_lost (ast : IDLAST.t) (es1 es2 : list entity) :
  commands_of es1 = commands_of es2 →
  enums_of es1 = enums_of es2 →
  structs_of es1 = structs_of es2 →
  server_parameters_of es1 = server_parameters_of es2 →
  configs_of es1 = configs_of es2 →
  append_entities ast es1 = append_entities ast es2.
Proof.
  intros Hc He Hs Hp Ho. rewrite !append_entities_by_kind.
  by rewrite Hc, He, Hs, Hp, Ho.
Qed.

Lemma IDLAST_order_between_lists_lost_witness :
  struct_then_enum ≠ enum_then_struct
  ∧ append_entities IDLAST.init struct_then_enum
    = append_entities IDLAST.init enum_then_struct.
Proof.
  split; [discriminate|].
  apply (IDLAST_order_between_lists_lost IDLAST.init struct_then_enum enum_then_struct);
    reflexivity.
Defined.

(** ** The values IDLBoundSpec can construct *)

(** X6.  The objects the constructor of IDLBoundSpec can return are exactly
    those with one branch populated: a value with both or neither is
    returned for no arguments, and a constructed object is returned for its
    own two attributes only. *)
Theorem IDLBoundSpec_constructible {A E : Type} (bound : IDLBoundSpec.t A E) :
  ((∃ spec error_collection, IDLBoundSpec.init spec error_collection = Ok bound)
   ↔ exactly_one_populated bound = true)
  ∧ (∀ spec error_collection,
       IDLBoundSpec.init spec error_collection = Ok bound →
       spec = IDLBoundSpec.spec bound ∧ error_collection = IDLBoundSpec.errors bound).
Proof.
  assert (∀ spec error_collection,
            IDLBoundSpec.init spec error_collection = Ok bound →
            spec = IDLBoundSpec.spec bound ∧ error_collection = IDLBoundSpec.errors bound
            ∧ exactly_one_populated bound = true) as Hinv.
  { intros spec ec Hb.
    destruct spec, ec; unfold IDLBoundSpec.init in Hb; simpl in Hb; inversion Hb; done. }
  split.
  - split.
    + intros (spec & ec & Hb). by apply Hinv in Hb as (_ & _ & Hx).
    + intros Hx. exists (IDLBoundSpec.spec bound), (IDLBoundSpec.errors bound).
      destruct bound as [sp er]. by apply IDLBoundSpec_init_ok.
  - intros spec ec Hb. by apply Hinv in Hb as (? & ? & _).
Qed.

(** ** Keeping a validator non-empty *)

Lemma assign_present_nonempty (v : Validator.t) (a : Validator.assignment) :
  clears_predicate a = false → validator_nonempty (setattr v a) = true.
Proof.
  destruct v as [l0 x1 x2 x3 x4 x5].
  destruct a as [[?|]|[?|]|[?|]|[?|]|[?|]]; intros Ha; try discriminate;
    unfold validator_nonempty; simpl; by rewrite ?orb_true_r.
Qed.

(** X7.  A run of assignments to a Validator in which none assigns [None]
    ends in a validator with at least one predicate, provided the run is not
    empty or the validator had a predicate to begin with. *)
Theorem Validator_stays_nonempty (v : Validator.t) (assignments : list Validator.assignment) :
  Forall (λ a, clears_predicate a = false) assignments →
  assignments ≠ [] ∨ validator_nonempty v = true →
  validator_nonempty (assign_all v assignments) = true.
Proof.
  unfold assign_all. revert v.
  induction assignments as [|a l IH]; intros v Hall Hstart; simpl.
  - by destruct Hstart.
  - apply Forall_cons in Hall as [Ha Hl].
    apply IH; [done|]. right. by apply assign_present_nonempty.
Qed.

Lemma Validator_stays_nonempty_witness :
  validator_nonempty (assign_all lower_bound_validator bound_assignments) = true
  ∧ validator_nonempty (assign_all empty_validator bound_assignments) = true.
Proof.
  split.
  - apply (Validator_stays_nonempty lower_bound_validator bound_assignments).
    + repeat constructor.
    + right. reflexivity.
  - apply (Validator_stays_nonempty empty_validator bound_assignments).
    + repeat constructor.
    + left. discriminate.
Defined.
